(** * Zero-order electrocoagulation unit: the model built by
      [ElectrocoagulationZOData.build]

    Source: [watertap/unit_models/zero_order/electrocoagulation_zo.py].

    The method declares five scalar parameters, two time-indexed variables
    and one time-indexed equality constraint on a process block.  The rule of
    the constraint calls Python's [breakpoint()] before it returns its
    expression, so building the unit talks to a debugger: the build is
    modelled as an interaction tree over one event, and the expressions it
    returns as syntax trees with a partial evaluation over the reals
    (division by zero and the logarithm of a non-positive number raise in
    Python).

    The modelling framework (Pyomo / IDAES) is not part of the repository:
    what the model needs of it (component containers, unit conversion, the
    Faraday constant, the base class and the [build_sido] helper) is either a
    small definition documented where it stands or a parameter of the
    section. *)

From Stdlib Require Import String List ZArith QArith Qreals Reals Lra Lia.
From ITree Require Import ITree ITreeFacts Events.State Events.StateFacts.
Import ListNotations ITreeNotations.
Local Close Scope Q_scope.
Local Open Scope itree_scope.
Local Open Scope string_scope.

(* ===================================================================== *)
(** ** Units of measurement ([pyomo.environ.units]) *)
(* ===================================================================== *)

(** The named units the module mentions, and the coulomb of the Faraday
    constant; written [pyunits.cm], [pyunits.S], ... as in the source. *)
Module pyunits.

Inductive unit_name : Type :=
| cm | S | dimensionless | mA | A | kWh | m | mol | C.

End pyunits.

Module Units.

Local Open Scope Q_scope.

(** Unit expressions as Python builds them: [a * b], [a / b], [a ** n]. *)
Inductive units : Type :=
| UBase (u : pyunits.unit_name)
| UMul (a b : units)
| UDiv (a b : units)
| UPow (a : units) (n : Z).

(** Exponents of the SI base dimensions: length, mass, time, current,
    amount of substance. *)
Record dimension : Type := Dim {
  d_length : Z; d_mass : Z; d_time : Z; d_current : Z; d_amount : Z
}.

Definition dim_mul (x y : dimension) : dimension :=
  Dim (d_length x + d_length y) (d_mass x + d_mass y) (d_time x + d_time y)
      (d_current x + d_current y) (d_amount x + d_amount y).

Definition dim_pow (x : dimension) (n : Z) : dimension :=
  Dim (d_length x * n) (d_mass x * n) (d_time x * n)
      (d_current x * n) (d_amount x * n).

Definition dim_inv (x : dimension) : dimension := dim_pow x (-1).

Definition dim_eqb (x y : dimension) : bool :=
  ((d_length x =? d_length y) && (d_mass x =? d_mass y)
   && (d_time x =? d_time y) && (d_current x =? d_current y)
   && (d_amount x =? d_amount y))%Z%bool.

(** Dimension and factor to SI base units of each named unit. *)
Definition base_dimension (u : pyunits.unit_name) : dimension :=
  match u with
  | pyunits.cm | pyunits.m => Dim 1 0 0 0 0
  | pyunits.S => Dim (-2) (-1) 3 2 0
  | pyunits.dimensionless => Dim 0 0 0 0 0
  | pyunits.mA | pyunits.A => Dim 0 0 0 1 0
  | pyunits.kWh => Dim 2 1 (-2) 0 0
  | pyunits.mol => Dim 0 0 0 0 1
  | pyunits.C => Dim 0 0 1 1 0
  end.

Definition base_factor (u : pyunits.unit_name) : Q :=
  match u with
  | pyunits.cm => 1 # 100
  | pyunits.mA => 1 # 1000
  | pyunits.kWh => 3600000 # 1
  | pyunits.S | pyunits.dimensionless | pyunits.A | pyunits.m
  | pyunits.mol | pyunits.C => 1
  end.

Fixpoint dimension_of (u : units) : dimension :=
  match u with
  | UBase n => base_dimension n
  | UMul a b => dim_mul (dimension_of a) (dimension_of b)
  | UDiv a b => dim_mul (dimension_of a) (dim_inv (dimension_of b))
  | UPow a n => dim_pow (dimension_of a) n
  end.

Fixpoint si_factor (u : units) : Q :=
  match u with
  | UBase n => base_factor n
  | UMul a b => si_factor a * si_factor b
  | UDiv a b => si_factor a / si_factor b
  | UPow a n => Qpower (si_factor a) n
  end.

(** [pyunits.convert] multiplies its argument by the ratio of the two
    factors; it raises when the dimensions differ. *)
Definition compatible (src dst : units) : bool :=
  dim_eqb (dimension_of src) (dimension_of dst).

Definition conversion_factor (src dst : units) : Q :=
  si_factor src / si_factor dst.

End Units.
Import Units.

(** [pyunits.mA / pyunits.cm**2] and [pyunits.A / pyunits.cm**2]. *)
Definition mA_per_cm2 : units :=
  UDiv (UBase pyunits.mA) (UPow (UBase pyunits.cm) 2).
Definition A_per_cm2 : units :=
  UDiv (UBase pyunits.A) (UPow (UBase pyunits.cm) 2).

(* ===================================================================== *)
(** ** Variables and expressions *)
(* ===================================================================== *)

(** The [Var] components that [build] declares. *)
Inductive var_name : Type :=
| electrode_spacing
| solution_conductivity
| power_density_k1
| power_density_k2
| z_valence
| current_density
| energy_consumption.

(** The attribute name of each variable on the block. *)
Definition attr_name (v : var_name) : string :=
  match v with
  | electrode_spacing => "electrode_spacing"
  | solution_conductivity => "solution_conductivity"
  | power_density_k1 => "power_density_k1"
  | power_density_k2 => "power_density_k2"
  | z_valence => "z_valence"
  | current_density => "current_density"
  | energy_consumption => "energy_consumption"
  end.

(** A [Var(...)] declaration: whether it is indexed by the flowsheet's time
    set, its units, its bounds and its documentation string. *)
Record VarDecl : Type := {
  var_indexed : bool;
  var_units : units;
  var_bounds : option Z * option Z;
  var_doc : string
}.

(** The seven declarations, argument for argument. *)
Definition declaration (v : var_name) : VarDecl :=
  match v with
  | electrode_spacing =>
      {| var_indexed := false; var_units := UBase pyunits.cm;
         var_bounds := (None, None);
         var_doc := "Distance between the electrodes" |}
  | solution_conductivity =>
      {| var_indexed := false;
         var_units := UDiv (UBase pyunits.S) (UBase pyunits.cm);
         var_bounds := (None, None);
         var_doc := "Electrical conductivity of solution" |}
  | power_density_k1 =>
      {| var_indexed := false; var_units := UBase pyunits.dimensionless;
         var_bounds := (None, None);
         var_doc := "Constant k1 in power density equation" |}
  | power_density_k2 =>
      {| var_indexed := false; var_units := UBase pyunits.dimensionless;
         var_bounds := (None, None);
         var_doc := "Constant k2 in power density equation" |}
  | z_valence =>
      {| var_indexed := false; var_units := UBase pyunits.dimensionless;
         var_bounds := (None, None);
         var_doc :=
           "Valence of dissolving metal ion for energy consumption equation" |}
  | current_density =>
      {| var_indexed := true; var_units := mA_per_cm2;
         var_bounds := (Some 1%Z, Some 9%Z);
         var_doc := "Current density" |}
  | energy_consumption =>
      {| var_indexed := true;
         var_units :=
           UDiv (UDiv (UBase pyunits.kWh) (UPow (UBase pyunits.m) 3))
                (UBase pyunits.mol);
         var_bounds := (None, None);
         var_doc := "Energy required for treating a given volume" |}
  end.

Section Electrocoagulation.

(** Points of the flowsheet's time set. *)
Variable time : Type.

(** [Constants.faraday_constant] of [idaes.core.util.constants], in C/mol:
    its value is not in the repository's files. *)
Variable faraday_constant : R.

(** Expression trees, as the overloaded Python operators build them.
    [EVar v None] is a scalar variable, [EVar v (Some t)] the member of an
    indexed variable at [t]; [EInt] an integer literal; [EConvert e u] is
    [pyunits.convert(e, to_units=u)]. *)
Inductive expr : Type :=
| EInt (z : Z)
| EFaraday
| EVar (v : var_name) (idx : option time)
| EConvert (e : expr) (to_units : units)
| EAdd (a b : expr)
| EMul (a b : expr)
| EDiv (a b : expr)
| ELog (a : expr).

(** The only relation the module builds is [lhs == rhs]. *)
Inductive relational : Type :=
| REq (lhs rhs : expr).

(** Units of an expression, as the unit checker reads them. *)
Fixpoint units_of (e : expr) : units :=
  match e with
  | EInt _ => UBase pyunits.dimensionless
  | EFaraday => UDiv (UBase pyunits.C) (UBase pyunits.mol)
  | EVar v _ => var_units (declaration v)
  | EConvert _ to_units => to_units
  | EAdd a _ => units_of a
  | EMul a b => UMul (units_of a) (units_of b)
  | EDiv a b => UDiv (units_of a) (units_of b)
  | ELog _ => UBase pyunits.dimensionless
  end.

(** An assignment of values to the variables. *)
Definition valuation : Type := var_name -> option time -> R.

(** Value of an expression; [None] where Python raises
    ([ZeroDivisionError], or [ValueError] for [log] outside its domain). *)
Fixpoint eval (rho : valuation) (e : expr) : option R :=
  match e with
  | EInt z => Some (IZR z)
  | EFaraday => Some faraday_constant
  | EVar v idx => Some (rho v idx)
  | EConvert a to_units =>
      match eval rho a with
      | Some x => Some (Q2R (conversion_factor (units_of a) to_units) * x)%R
      | None => None
      end
  | EAdd a b =>
      match eval rho a, eval rho b with
      | Some x, Some y => Some (x + y)%R
      | _, _ => None
      end
  | EMul a b =>
      match eval rho a, eval rho b with
      | Some x, Some y => Some (x * y)%R
      | _, _ => None
      end
  | EDiv a b =>
      match eval rho a, eval rho b with
      | Some x, Some y =>
          if Req_dec_T y 0 then None else Some (x / y)%R
      | _, _ => None
      end
  | ELog a =>
      match eval rho a with
      | Some x => if Rlt_dec 0 x then Some (ln x) else None
      | None => None
      end
  end.

(** A valuation satisfies [lhs == rhs] when both sides have a value and the
    values agree. *)
Definition satisfies (rho : valuation) (c : relational) : Prop :=
  match c with
  | REq lhs rhs =>
      exists x : R, eval rho lhs = Some x /\ eval rho rhs = Some x
  end.

(** A value within declared bounds [(lb, ub)]; [None] is no bound. *)
Definition within (bounds : option Z * option Z) (x : R) : Prop :=
  match fst bounds with Some lb => (IZR lb <= x)%R | None => True end /\
  match snd bounds with Some ub => (x <= IZR ub)%R | None => True end.

(** The valuation keeps every variable within the bounds of its
    declaration. *)
Definition respects_bounds (rho : valuation) : Prop :=
  forall (v : var_name) (idx : option time),
    within (var_bounds (declaration v)) (rho v idx).

(* ===================================================================== *)
(** ** The debugger *)
(* ===================================================================== *)

(** [breakpoint()] hands control to the debugger hook; the program goes on
    when, and if, the hook returns. *)
Variant debugE : Type -> Type :=
| Breakpoint : debugE unit.

(** The two local expressions of the constraint's rule: the current
    density converted to A/cm^2, and the ohmic resistance. *)
Definition current_density_in (t : time) : expr :=
  EConvert (EVar current_density (Some t)) A_per_cm2.

Definition ohmic_resistance : expr :=
  EDiv (EVar electrode_spacing None) (EVar solution_conductivity None).

(** The right-hand side of the relation the rule returns. *)
Definition energy_consumption_rhs (t : time) : expr :=
  EMul
    (EAdd
       (EAdd (EMul (current_density_in t) ohmic_resistance)
             (EMul (EVar power_density_k1 None) (ELog (current_density_in t))))
       (EVar power_density_k2 None))
    (EDiv (EMul (EVar z_valence None) EFaraday) (EInt (3600 * 10 ^ 6))).

(** The rule of [energy_consumption_constraint], for the index [t]: the
    locals are bound, the debugger is entered, the relation is returned. *)
Definition energy_consumption_constraint (t : time)
  : itree debugE relational :=
  ITree.trigger Breakpoint ;;
  Ret (REq (EVar energy_consumption (Some t)) (energy_consumption_rhs t)).

(* ===================================================================== *)
(** ** The process block *)
(* ===================================================================== *)

(** A component of a block: a variable, or an indexed constraint with the
    relation stored for each index. *)
Inductive component : Type :=
| CVar (d : VarDecl)
| CConstraint (doc : string) (body : list (time * relational)).

(** What [build] reads and writes of the unit: the technology type, the
    components in declaration order, the list of parameters to load from
    the database and the dictionary of variables to report (a Python
    [dict]: keys in insertion order).  Variables are referred to by
    attribute name. *)
Record block : Type := {
  _tech_type : option string;
  components : list (string * component);
  _fixed_perf_vars : list string;
  _perf_var_dict : list (string * string)
}.

Definition set_tech_type (s : string) (b : block) : block :=
  {| _tech_type := Some s;
     components := components b;
     _fixed_perf_vars := _fixed_perf_vars b;
     _perf_var_dict := _perf_var_dict b |}.

(** [self.<name> = <component>]: the component goes last; one already
    stored under the name is replaced. *)
Definition add_component (name : string) (c : component) (b : block)
  : block :=
  {| _tech_type := _tech_type b;
     components :=
       filter (fun p => negb (String.eqb name (fst p))) (components b)
       ++ [(name, c)];
     _fixed_perf_vars := _fixed_perf_vars b;
     _perf_var_dict := _perf_var_dict b |}.

Fixpoint lookup {V : Type} (name : string) (l : list (string * V))
  : option V :=
  match l with
  | [] => None
  | (k, v) :: l' => if String.eqb name k then Some v else lookup name l'
  end.

Definition component_of (b : block) (name : string) : option component :=
  lookup name (components b).

(** [self.<v> = Var(...)] with the arguments of [declaration v]. *)
Definition declare (v : var_name) (b : block) : block :=
  add_component (attr_name v) (CVar (declaration v)) b.

(** [self._fixed_perf_vars.append(self.<v>)]. *)
Definition append_fixed_perf_var (v : var_name) (b : block) : block :=
  {| _tech_type := _tech_type b;
     components := components b;
     _fixed_perf_vars := _fixed_perf_vars b ++ [attr_name v];
     _perf_var_dict := _perf_var_dict b |}.

(** [d[key] = value] on a Python [dict]. *)
Fixpoint dict_set {V : Type} (key : string) (value : V)
  (d : list (string * V)) : list (string * V) :=
  match d with
  | [] => [(key, value)]
  | (k, v) :: d' =>
      if String.eqb key k then (k, value) :: d'
      else (k, v) :: dict_set key value d'
  end.

(** [self._perf_var_dict[key] = self.<v>]. *)
Definition store_perf_var (key : string) (v : var_name) (b : block)
  : block :=
  {| _tech_type := _tech_type b;
     components := components b;
     _fixed_perf_vars := _fixed_perf_vars b;
     _perf_var_dict := dict_set key (attr_name v) (_perf_var_dict b) |}.

(** Construction of an indexed component on a concrete model: the rule
    runs once for each member of the index set, in order. *)
Fixpoint construct {E : Type -> Type} {X : Type}
  (rule : time -> itree E X) (index_set : list time)
  : itree E (list (time * X)) :=
  match index_set with
  | [] => Ret []
  | t :: rest =>
      x <- rule t ;;
      xs <- construct rule rest ;;
      Ret ((t, x) :: xs)
  end.

(** [ZeroOrderBaseData.build] and [watertap.core.build_sido] are not in the
    repository's files: any two functions on blocks. *)
Variable super_build : block -> block.
Variable build_sido : block -> block.

(** [ElectrocoagulationZOData.build], on a unit whose flowsheet has the
    time set [flowsheet_time]. *)
Definition build (flowsheet_time : list time) (self : block)
  : itree debugE block :=
  let self := super_build self in
  let self := set_tech_type "electrocoagulation" self in
  let self := build_sido self in
  let self := declare electrode_spacing self in
  let self := declare solution_conductivity self in
  let self := declare power_density_k1 self in
  let self := declare power_density_k2 self in
  let self := declare z_valence self in
  let self := append_fixed_perf_var electrode_spacing self in
  let self := append_fixed_perf_var solution_conductivity self in
  let self := append_fixed_perf_var power_density_k1 self in
  let self := append_fixed_perf_var power_density_k2 self in
  let self := append_fixed_perf_var z_valence self in
  let self := declare current_density self in
  let self := declare energy_consumption self in
  body <- construct energy_consumption_constraint flowsheet_time ;;
  let self :=
    add_component "energy_consumption_constraint"
      (CConstraint "Energy requirement constraint" body) self in
  let self :=
    store_perf_var "Current density (mA/cm²)" current_density self in
  let self :=
    store_perf_var "Energy Consumption (kWh/m³/mole)" energy_consumption
      self in
  Ret self.

(** A debugger that resumes the program at every stop; the state counts
    the stops. *)
Definition resume : debugE ~> Monads.stateT nat (itree void1) :=
  fun _ e n =>
    match e with
    | Breakpoint => Ret (Datatypes.S n, tt)
    end.

(* ===================================================================== *)
(** ** Dimensional analysis and derived views of the model *)
(* ===================================================================== *)

(** The dimension of an expression, read from the units of the
    declarations the way a units-consistency check reads it: the terms of a
    sum have the same dimension, the argument of [log] has none, a
    conversion goes between units of one dimension; [None] where one of
    these fails. *)
Fixpoint dimension_check (e : expr) : option dimension :=
  match e with
  | EInt _ => Some (Dim 0 0 0 0 0)
  | EFaraday =>
      Some (dimension_of (UDiv (UBase pyunits.C) (UBase pyunits.mol)))
  | EVar v _ => Some (dimension_of (var_units (declaration v)))
  | EConvert a to_units =>
      match dimension_check a with
      | Some d =>
          if dim_eqb d (dimension_of to_units) then Some d else None
      | None => None
      end
  | EAdd a b =>
      match dimension_check a, dimension_check b with
      | Some da, Some db => if dim_eqb da db then Some da else None
      | _, _ => None
      end
  | EMul a b =>
      match dimension_check a, dimension_check b with
      | Some da, Some db => Some (dim_mul da db)
      | _, _ => None
      end
  | EDiv a b =>
      match dimension_check a, dimension_check b with
      | Some da, Some db => Some (dim_mul da (dim_inv db))
      | _, _ => None
      end
  | ELog a =>
      match dimension_check a with
      | Some d =>
          if dim_eqb d (Dim 0 0 0 0 0) then Some (Dim 0 0 0 0 0) else None
      | None => None
      end
  end.

(** The valuation [rho] with the energy consumption set to [e] at every
    time point. *)
Definition with_energy_consumption (rho : valuation) (e : R) : valuation :=
  fun v idx =>
    match v with
    | energy_consumption => e
    | _ => rho v idx
    end.

(** The attribute names [build] assigns: the seven variables and the
    constraint. *)
Definition build_names : list string :=
  ["electrode_spacing"; "solution_conductivity"; "power_density_k1";
   "power_density_k2"; "z_valence"; "current_density";
   "energy_consumption"; "energy_consumption_constraint"].

(** The block on which [build] starts its own declarations: after the base
    class, the technology type and [build_sido]. *)
Definition after_build_sido (self : block) : block :=
  build_sido (set_tech_type "electrocoagulation" (super_build self)).

(* ===================================================================== *)
(** ** Unit conversion and evaluation *)
(* ===================================================================== *)

Lemma mA_per_cm2_compatible : compatible mA_per_cm2 A_per_cm2 = true.
Proof. reflexivity. Qed.

Lemma mA_per_cm2_factor :
  Q2R (conversion_factor mA_per_cm2 A_per_cm2) = (/ 1000)%R.
Proof.
  assert (E : (conversion_factor mA_per_cm2 A_per_cm2 == 1 # 1000)%Q)
    by reflexivity.
  rewrite (Qeq_eqR _ _ E). unfold Q2R. cbn. lra.
Qed.

Lemma eval_current_density_in (rho : valuation) (t : time) :
  eval rho (current_density_in t)
  = Some (/ 1000 * rho current_density (Some t))%R.
Proof.
  unfold current_density_in. cbn [eval units_of declaration var_units].
  now rewrite mA_per_cm2_factor.
Qed.

Lemma IZR_divisor : IZR (3600 * 10 ^ 6) = (3600 * 10 ^ 6)%R.
Proof.
  change (3600 * 10 ^ 6)%Z with 3600000000%Z. simpl pow. lra.
Qed.

Lemma divisor_nonzero : IZR (3600 * 10 ^ 6) <> 0%R.
Proof.
  change (3600 * 10 ^ 6)%Z with 3600000000%Z. lra.
Qed.

Lemma eval_energy_consumption_rhs (rho : valuation) (t : time) :
  eval rho (energy_consumption_rhs t)
  = if Req_dec_T (rho solution_conductivity None) 0 then None
    else if Rlt_dec 0 (/ 1000 * rho current_density (Some t)) then
      Some ((/ 1000 * rho current_density (Some t)
               * (rho electrode_spacing None / rho solution_conductivity None)
             + rho power_density_k1 None
               * ln (/ 1000 * rho current_density (Some t))
             + rho power_density_k2 None)
            * (rho z_valence None * faraday_constant
               / IZR (3600 * 10 ^ 6)))%R
    else None.
Proof.
  unfold energy_consumption_rhs, ohmic_resistance.
  cbn [eval]. rewrite eval_current_density_in.
  destruct (Req_dec_T (rho solution_conductivity None) 0) as [Hs | Hs];
    [reflexivity |].
  destruct (Rlt_dec 0 (/ 1000 * rho current_density (Some t))) as [Hi | Hi];
    [| reflexivity].
  destruct (Req_dec_T (IZR (3600 * 10 ^ 6)) 0) as [Hd | Hd];
    [exfalso; exact (divisor_nonzero Hd) | reflexivity].
Qed.

(* ===================================================================== *)
(** ** Components of a block *)
(* ===================================================================== *)

Lemma lookup_app {V : Type} (k : string) (l1 l2 : list (string * V)) :
  lookup k (l1 ++ l2)
  = match lookup k l1 with Some v => Some v | None => lookup k l2 end.
Proof.
  induction l1 as [| [k1 v1] l1 IH]; cbn; [reflexivity |].
  destruct (String.eqb k k1); [reflexivity | exact IH].
Qed.

Lemma lookup_filter_same {V : Type} (k : string) (l : list (string * V)) :
  lookup k (filter (fun p => negb (String.eqb k (fst p))) l) = None.
Proof.
  induction l as [| [k1 v1] l IH]; cbn; [reflexivity |].
  destruct (String.eqb k k1) eqn:E; cbn; [exact IH |].
  now rewrite E.
Qed.

Lemma lookup_filter_other {V : Type} (k k' : string)
  (l : list (string * V)) :
  String.eqb k' k = false ->
  lookup k' (filter (fun p => negb (String.eqb k (fst p))) l) = lookup k' l.
Proof.
  intros Hne. induction l as [| [k1 v1] l IH]; cbn; [reflexivity |].
  destruct (String.eqb k k1) eqn:E; cbn.
  - apply String.eqb_eq in E. subst k1. now rewrite Hne.
  - now rewrite IH.
Qed.

Lemma component_of_add_same (name : string) (c : component) (b : block) :
  component_of (add_component name c b) name = Some c.
Proof.
  unfold component_of, add_component. cbn [components].
  rewrite lookup_app, lookup_filter_same. cbn.
  now rewrite String.eqb_refl.
Qed.

Lemma component_of_add_other (name name' : string) (c : component)
  (b : block) :
  String.eqb name' name = false ->
  component_of (add_component name c b) name' = component_of b name'.
Proof.
  intros Hne. unfold component_of, add_component. cbn [components].
  rewrite lookup_app, (lookup_filter_other _ _ _ Hne). cbn.
  rewrite Hne. now destruct (lookup name' (components b)).
Qed.

Lemma component_of_append_fixed_perf_var (v : var_name) (b : block)
  (name : string) :
  component_of (append_fixed_perf_var v b) name = component_of b name.
Proof. reflexivity. Qed.

Lemma component_of_store_perf_var (key : string) (v : var_name) (b : block)
  (name : string) :
  component_of (store_perf_var key v b) name = component_of b name.
Proof. reflexivity. Qed.

(* ===================================================================== *)
(** ** Running the build under a debugger that resumes *)
(* ===================================================================== *)

Lemma energy_consumption_constraint_vis (t : time) :
  energy_consumption_constraint t
  ≅ Vis Breakpoint
      (fun _ : unit =>
         Ret (REq (EVar energy_consumption (Some t))
                  (energy_consumption_rhs t))).
Proof.
  unfold energy_consumption_constraint. now rewrite bind_trigger.
Qed.

Lemma construct_resumed (index_set : list time) (n : nat) :
  interp_state resume (construct energy_consumption_constraint index_set) n
  ≈ Ret ((n + length index_set)%nat,
         List.map (fun t => (t, REq (EVar energy_consumption (Some t))
                                    (energy_consumption_rhs t)))
             index_set).
Proof.
  revert n. induction index_set as [| t rest IH]; intros n; cbn [construct].
  - rewrite interp_state_ret. cbn. now rewrite Nat.add_0_r.
  - unfold energy_consumption_constraint. rewrite bind_bind.
    rewrite interp_state_bind, interp_state_trigger. cbn.
    rewrite !bind_ret_l. cbn.
    rewrite interp_state_bind, IH, bind_ret_l. cbn.
    rewrite interp_state_ret.
    now rewrite Nat.add_succ_r.
Qed.

Lemma lookup_dict_set_same {V : Type} (key : string) (value : V)
  (d : list (string * V)) :
  lookup key (dict_set key value d) = Some value.
Proof.
  induction d as [| [k v] d IH]; cbn.
  - now rewrite String.eqb_refl.
  - destruct (String.eqb key k) eqn:E; cbn; rewrite E; [reflexivity | exact IH].
Qed.

Lemma lookup_dict_set_other {V : Type} (key key' : string) (value : V)
  (d : list (string * V)) :
  String.eqb key' key = false ->
  lookup key' (dict_set key value d) = lookup key' d.
Proof.
  intros Hne. induction d as [| [k v] d IH]; cbn.
  - now rewrite Hne.
  - destruct (String.eqb key k) eqn:E; cbn.
    + apply String.eqb_eq in E. subst k. now rewrite Hne.
    + now rewrite IH.
Qed.

Ltac component_lookup :=
  unfold declare; cbn [attr_name];
  repeat first
    [ rewrite component_of_store_perf_var
    | rewrite component_of_append_fixed_perf_var
    | rewrite component_of_add_same
    | rewrite component_of_add_other by reflexivity ];
  try reflexivity.

(** What the unit looks like once every stop of the debugger has been
    resumed: the debugger was entered once per time point, the constraint
    holds the rule's relation at each time point, and the seven variables
    are stored with their declarations. *)
Lemma build_resumed (flowsheet_time : list time) (self : block) (n : nat) :
  exists unit : block,
    interp_state resume (build flowsheet_time self) n
    ≈ Ret ((n + length flowsheet_time)%nat, unit)
    /\ component_of unit "energy_consumption_constraint"
       = Some (CConstraint "Energy requirement constraint"
                 (List.map
                    (fun t => (t, REq (EVar energy_consumption (Some t))
                                      (energy_consumption_rhs t)))
                    flowsheet_time))
    /\ (forall v : var_name,
          component_of unit (attr_name v) = Some (CVar (declaration v)))
    /\ _fixed_perf_vars unit
       = (_fixed_perf_vars
            (build_sido
               (set_tech_type "electrocoagulation" (super_build self)))
          ++ List.map attr_name
               [electrode_spacing; solution_conductivity; power_density_k1;
                power_density_k2; z_valence])%list
    /\ lookup "Current density (mA/cm²)" (_perf_var_dict unit)
       = Some (attr_name current_density)
    /\ lookup "Energy Consumption (kWh/m³/mole)" (_perf_var_dict unit)
       = Some (attr_name energy_consumption).
Proof.
  unfold build. cbv zeta.
  eexists. split.
  - rewrite interp_state_bind, construct_resumed, bind_ret_l. cbn [fst snd].
    rewrite interp_state_ret. reflexivity.
  - split; [component_lookup |].
    split; [intros v; destruct v; component_lookup |].
    split; [cbn; now rewrite <- !app_assoc |].
    split.
    + cbn [_perf_var_dict store_perf_var].
      rewrite lookup_dict_set_other by reflexivity.
      apply lookup_dict_set_same.
    + cbn [_perf_var_dict store_perf_var].
      apply lookup_dict_set_same.
Qed.

Lemma construct_step (t : time) (rest : list time) :
  construct energy_consumption_constraint (t :: rest)
  ≅ Vis Breakpoint
      (fun _ : unit =>
         xs <- construct energy_consumption_constraint rest ;;
         Ret ((t, REq (EVar energy_consumption (Some t))
                      (energy_consumption_rhs t)) :: xs)).
Proof.
  cbn [construct]. rewrite energy_consumption_constraint_vis, bind_vis.
  apply eqit_Vis. intros []. now rewrite bind_ret_l.
Qed.

(* ===================================================================== *)
(** ** The energy consumption constraint *)
(* ===================================================================== *)

(** C1. For every time point [t] of the flowsheet, building the unit (each
    stop of the debugger being resumed) stores under
    [energy_consumption_constraint] a relation at [t] that a valuation
    satisfies exactly when [energy_consumption[t]] equals
    [(i * (electrode_spacing / solution_conductivity)
      + power_density_k1 * log i + power_density_k2)
     * (z_valence * faraday_constant / (3600 * 10^6))],
    with [i] the current density at [t] divided by 1000 (mA/cm^2 converted
    to A/cm^2), both sides having a value: the conductivity is not zero and
    [i] is positive. *)
Theorem energy_consumption_constraint_correlation
  (flowsheet_time : list time) (self : block) :
  exists (unit : block) (c : time -> relational),
    interp_state resume (build flowsheet_time self) 0
    ≈ Ret (length flowsheet_time, unit)
    /\ component_of unit "energy_consumption_constraint"
       = Some (CConstraint "Energy requirement constraint"
                 (List.map (fun t => (t, c t)) flowsheet_time))
    /\ forall (t : time) (rho : valuation),
         let i := (rho current_density (Some t) / 1000)%R in
         satisfies rho (c t)
         <-> (rho solution_conductivity None <> 0%R
              /\ (0 < i)%R
              /\ rho energy_consumption (Some t)
                 = ((i * (rho electrode_spacing None
                          / rho solution_conductivity None)
                     + rho power_density_k1 None * ln i
                     + rho power_density_k2 None)
                    * (rho z_valence None * faraday_constant
                       / (3600 * 10 ^ 6)))%R).
Proof.
  destruct (build_resumed flowsheet_time self 0) as (unit & Hrun & Hc & _).
  exists unit,
    (fun t => REq (EVar energy_consumption (Some t))
                  (energy_consumption_rhs t)).
  split; [exact Hrun |]. split; [exact Hc |].
  intros t rho i. cbn [satisfies eval].
  rewrite eval_energy_consumption_rhs, IZR_divisor.
  replace (/ 1000 * rho current_density (Some t))%R with i
    by (subst i; lra).
  destruct (Req_dec_T (rho solution_conductivity None) 0) as [Hs | Hs].
  - split.
    + intros (x & _ & Hx). discriminate Hx.
    + intros (Hne & _). contradiction.
  - destruct (Rlt_dec 0 i) as [Hi | Hi].
    + split.
      * intros (x & Hl & Hr).
        repeat split; [exact Hs | exact Hi | congruence].
      * intros (_ & _ & Heq). eexists. split; [reflexivity |].
        now rewrite Heq.
    + split.
      * intros (x & _ & Hx). discriminate Hx.
      * intros (_ & Hpos & _). contradiction.
Qed.

(** C2. Building the unit is not a pure construction of constraints: for
    every time point the rule of [energy_consumption_constraint] first
    enters the debugger, whatever the state of the model, and returns its
    relation only when the debugger hands control back; constructing the
    constraint enters the debugger at each member of the time set before
    it stores that member's relation and goes on to the next; a whole build
    enters it once per time point, and returns without any interaction
    only on an empty time set. *)
Theorem build_enters_debugger (flowsheet_time : list time) (self : block) :
  (forall t : time,
     energy_consumption_constraint t
     ≅ Vis Breakpoint
         (fun _ : unit =>
            Ret (REq (EVar energy_consumption (Some t))
                     (energy_consumption_rhs t))))
  /\ (forall (t : time) (rest : list time),
        construct energy_consumption_constraint (t :: rest)
        ≅ Vis Breakpoint
            (fun _ : unit =>
               xs <- construct energy_consumption_constraint rest ;;
               Ret ((t, REq (EVar energy_consumption (Some t))
                            (energy_consumption_rhs t)) :: xs)))
  /\ (exists unit : block,
        interp_state resume (build flowsheet_time self) 0
        ≈ Ret (length flowsheet_time, unit))
  /\ ((exists unit : block, build flowsheet_time self ≈ Ret unit)
      <-> flowsheet_time = []).
Proof.
  split; [exact energy_consumption_constraint_vis |].
  split; [exact construct_step |].
  destruct (build_resumed flowsheet_time self 0) as (unit & Hrun & _).
  split; [now exists unit |].
  split.
  - intros (unit' & Hpure).
    rewrite Hpure, interp_state_ret in Hrun.
    apply eutt_inv_Ret in Hrun. injection Hrun as Hlen _.
    destruct flowsheet_time; [reflexivity | discriminate Hlen].
  - intros ->. unfold build. cbv zeta. cbn [construct].
    eexists. rewrite bind_ret_l. reflexivity.
Qed.

(* ===================================================================== *)
(** ** The bounds of the current density *)
(* ===================================================================== *)

(** C10, as amended. [current_density] is declared over the time set with
    bounds (1, 9) and units mA/cm^2, so under every valuation within the
    declared bounds the argument of the logarithm (the current density
    converted to A/cm^2) has a strictly positive value and the logarithm
    has a value; the right-hand side of the constraint as a whole has a
    value exactly when [solution_conductivity], which is declared without
    bounds, is not zero. *)
Theorem current_density_bounds_log_argument
  (flowsheet_time : list time) (self : block) (t : time) (rho : valuation) :
  respects_bounds rho ->
  (exists (unit : block) (d : VarDecl),
      interp_state resume (build flowsheet_time self) 0
      ≈ Ret (length flowsheet_time, unit)
      /\ component_of unit "current_density" = Some (CVar d)
      /\ var_indexed d = true
      /\ var_units d = mA_per_cm2
      /\ var_bounds d = (Some 1%Z, Some 9%Z))
  /\ (exists i : R,
        eval rho (current_density_in t) = Some i
        /\ (0 < i)%R
        /\ eval rho (ELog (current_density_in t)) = Some (ln i))
  /\ ((exists x : R, eval rho (energy_consumption_rhs t) = Some x)
      <-> rho solution_conductivity None <> 0%R).
Proof.
  intros Hb.
  assert (Hpos : (0 < / 1000 * rho current_density (Some t))%R).
  { destruct (Hb current_density (Some t)) as [Hlo _]. cbn in Hlo. lra. }
  split; [| split].
  - destruct (build_resumed flowsheet_time self 0)
      as (unit & Hrun & _ & Hv & _).
    exists unit, (declaration current_density).
    split; [exact Hrun |]. split; [exact (Hv current_density) |].
    repeat split.
  - exists (/ 1000 * rho current_density (Some t))%R.
    split; [apply eval_current_density_in |]. split; [exact Hpos |].
    cbn [eval]. rewrite eval_current_density_in.
    destruct (Rlt_dec 0 (/ 1000 * rho current_density (Some t)));
      [reflexivity | contradiction].
  - rewrite eval_energy_consumption_rhs.
    destruct (Req_dec_T (rho solution_conductivity None) 0) as [Hs | Hs].
    + split; [intros (x & Hx); discriminate Hx | intros Hne; contradiction].
    + destruct (Rlt_dec 0 (/ 1000 * rho current_density (Some t)));
        [| contradiction].
      split; [intros _; exact Hs | intros _; eexists; reflexivity].
Qed.

(* ===================================================================== *)
(** ** What else the build leaves on the unit *)
(* ===================================================================== *)


(** X2. The five scalar parameters are appended, in the order of the source,
    to the list of parameters that are loaded from the database and fixed;
    neither time-indexed variable is. *)
Theorem build_registers_fixed_parameters
  (flowsheet_time : list time) (self : block) :
  exists unit : block,
    interp_state resume (build flowsheet_time self) 0
    ≈ Ret (length flowsheet_time, unit)
    /\ _fixed_perf_vars unit
       = (_fixed_perf_vars
            (build_sido
               (set_tech_type "electrocoagulation" (super_build self)))
          ++ ["electrode_spacing"; "solution_conductivity";
              "power_density_k1"; "power_density_k2"; "z_valence"])%list.
Proof.
  destruct (build_resumed flowsheet_time self 0)
    as (unit & Hrun & _ & _ & Hf & _).
  now exists unit.
Qed.

(** X3. The two time-indexed variables are entered in the dictionary of
    reported performance variables under their display names. *)
Theorem build_reports_performance_variables
  (flowsheet_time : list time) (self : block) :
  exists unit : block,
    interp_state resume (build flowsheet_time self) 0
    ≈ Ret (length flowsheet_time, unit)
    /\ lookup "Current density (mA/cm²)" (_perf_var_dict unit)
       = Some "current_density"
    /\ lookup "Energy Consumption (kWh/m³/mole)" (_perf_var_dict unit)
       = Some "energy_consumption".
Proof.
  destruct (build_resumed flowsheet_time self 0)
    as (unit & Hrun & _ & _ & _ & Hcd & Hec).
  now exists unit.
Qed.

(* ===================================================================== *)
(** ** What the build leaves alone *)
(* ===================================================================== *)

Lemma not_in_build_names (name : string) :
  ~ In name build_names ->
  forall n : string, In n build_names -> String.eqb name n = false.
Proof.
  intros Hout n Hin. apply String.eqb_neq. intros ->. exact (Hout Hin).
Qed.

Ltac other_component H :=
  rewrite component_of_add_other
    by (apply (not_in_build_names _ H); cbn; tauto).

(** The rest of the unit once every stop of the debugger has been resumed:
    components under other names, other entries of the dictionary of
    reported variables and the technology type are those the block had
    when [build_sido] returned. *)
Lemma build_resumed_frame (flowsheet_time : list time) (self : block)
  (n : nat) :
  exists unit : block,
    interp_state resume (build flowsheet_time self) n
    ≈ Ret ((n + length flowsheet_time)%nat, unit)
    /\ (forall name : string,
          ~ In name build_names ->
          component_of unit name
          = component_of (after_build_sido self) name)
    /\ (forall key : string,
          key <> "Current density (mA/cm²)" ->
          key <> "Energy Consumption (kWh/m³/mole)" ->
          lookup key (_perf_var_dict unit)
          = lookup key (_perf_var_dict (after_build_sido self)))
    /\ _tech_type unit = _tech_type (after_build_sido self).
Proof.
  unfold build, after_build_sido. cbv zeta.
  eexists. split.
  - rewrite interp_state_bind, construct_resumed, bind_ret_l. cbn [fst snd].
    rewrite interp_state_ret. reflexivity.
  - split; [| split].
    + intros name Hout. unfold declare. cbn [attr_name].
      rewrite !component_of_store_perf_var.
      other_component Hout. other_component Hout. other_component Hout.
      rewrite !component_of_append_fixed_perf_var.
      other_component Hout. other_component Hout. other_component Hout.
      other_component Hout. other_component Hout.
      reflexivity.
    + intros key H1 H2. cbn [_perf_var_dict store_perf_var].
      rewrite !lookup_dict_set_other by (now apply String.eqb_neq).
      reflexivity.
    + reflexivity.
Qed.

(** X5. Building the unit touches no component but its own eight: under
    any other name the unit holds what it held when [build_sido] returned
    (a component, or nothing). *)
Theorem build_keeps_other_components
  (flowsheet_time : list time) (self : block) (name : string) :
  ~ In name build_names ->
  exists unit : block,
    interp_state resume (build flowsheet_time self) 0
    ≈ Ret (length flowsheet_time, unit)
    /\ component_of unit name = component_of (after_build_sido self) name.
Proof.
  intros Hout.
  destruct (build_resumed_frame flowsheet_time self 0)
    as (unit & Hrun & Hframe & _).
  exists unit. split; [exact Hrun | exact (Hframe name Hout)].
Qed.

(** X6. The dictionary of reported variables keeps every entry it had
    under a key other than the two display names the build writes. *)
Theorem build_keeps_other_reported_variables
  (flowsheet_time : list time) (self : block) (key : string) :
  key <> "Current density (mA/cm²)" ->
  key <> "Energy Consumption (kWh/m³/mole)" ->
  exists unit : block,
    interp_state resume (build flowsheet_time self) 0
    ≈ Ret (length flowsheet_time, unit)
    /\ lookup key (_perf_var_dict unit)
       = lookup key (_perf_var_dict (after_build_sido self)).
Proof.
  intros H1 H2.
  destruct (build_resumed_frame flowsheet_time self 0)
    as (unit & Hrun & _ & Hdict & _).
  exists unit. split; [exact Hrun | exact (Hdict key H1 H2)].
Qed.

(** X7. When [build_sido] leaves the technology type as it finds it, the
    built unit is of type "electrocoagulation", whatever the base class
    had set. *)
Theorem build_sets_tech_type
  (flowsheet_time : list time) (self : block) :
  (forall b : block, _tech_type (build_sido b) = _tech_type b) ->
  exists unit : block,
    interp_state resume (build flowsheet_time self) 0
    ≈ Ret (length flowsheet_time, unit)
    /\ _tech_type unit = Some "electrocoagulation".
Proof.
  intros Hkeep.
  destruct (build_resumed_frame flowsheet_time self 0)
    as (unit & Hrun & _ & _ & Htype).
  exists unit. split; [exact Hrun |].
  rewrite Htype. unfold after_build_sido. now rewrite Hkeep.
Qed.

(** X8. The build leaves no dangling reference of its own: each name it
    appends to the list of parameters to fix is a scalar variable stored on
    the unit, and each variable it enters in the dictionary of reported
    variables is a time-indexed variable stored on the unit. *)
Theorem build_references_declared_variables
  (flowsheet_time : list time) (self : block) :
  exists unit : block,
    interp_state resume (build flowsheet_time self) 0
    ≈ Ret (length flowsheet_time, unit)
    /\ (forall v : var_name,
          In v [electrode_spacing; solution_conductivity; power_density_k1;
                power_density_k2; z_valence] ->
          In (attr_name v) (_fixed_perf_vars unit)
          /\ exists d : VarDecl,
               component_of unit (attr_name v) = Some (CVar d)
               /\ var_indexed d = false)
    /\ (forall key : string,
          In key ["Current density (mA/cm²)";
                  "Energy Consumption (kWh/m³/mole)"] ->
          exists (name : string) (d : VarDecl),
            lookup key (_perf_var_dict unit) = Some name
            /\ component_of unit name = Some (CVar d)
            /\ var_indexed d = true).
Proof.
  destruct (build_resumed flowsheet_time self 0)
    as (unit & Hrun & _ & Hv & Hf & Hcd & Hec).
  exists unit. split; [exact Hrun |]. split.
  - intros v Hin. split.
    + rewrite Hf. apply in_or_app. right.
      apply (in_map attr_name) in Hin. exact Hin.
    + exists (declaration v). split; [apply Hv |].
      cbn in Hin.
      destruct Hin as [<- | [<- | [<- | [<- | [<- | []]]]]]; reflexivity.
  - intros key [<- | [<- | []]].
    + exists (attr_name current_density), (declaration current_density).
      split; [exact Hcd |]. split; [apply Hv | reflexivity].
    + exists (attr_name energy_consumption),
        (declaration energy_consumption).
      split; [exact Hec |]. split; [apply Hv | reflexivity].
Qed.

(* ===================================================================== *)
(** ** The correlation within the declared bounds *)
(* ===================================================================== *)

(** X9. Units of the constraint.  The current density converted to A/cm^2
    keeps the dimension current per area, so the logarithm is taken of a
    dimensional quantity and the right-hand side does not pass dimensional
    analysis; its ohmic term alone is a voltage, and times the valence
    factor an energy per amount of substance, where [energy_consumption] is
    declared as an energy per volume and amount. *)
Theorem energy_consumption_constraint_dimensions (t : time) :
  dimension_check (current_density_in t) = Some (Dim (-2) 0 0 1 0)
  /\ dimension_check (ELog (current_density_in t)) = None
  /\ dimension_check (energy_consumption_rhs t) = None
  /\ dimension_check (EMul (current_density_in t) ohmic_resistance)
     = Some (Dim 2 1 (-3) (-1) 0)
  /\ dimension_check
       (EMul (EMul (current_density_in t) ohmic_resistance)
             (EDiv (EMul (EVar z_valence None) EFaraday)
                   (EInt (3600 * 10 ^ 6))))
     = Some (Dim 2 1 (-2) 0 (-1))
  /\ dimension_check (EVar energy_consumption (Some t))
     = Some (Dim (-1) 1 (-2) 0 (-1)).
Proof. repeat split. Qed.

(** X10. Within the declared bounds the converted current density lies
    between 0.001 and 0.009 A/cm^2, so the logarithm in the correlation is
    strictly negative, between [ln 0.001] and [ln 0.009]. *)
Theorem log_current_density_negative (rho : valuation) (t : time) :
  respects_bounds rho ->
  exists l : R,
    eval rho (ELog (current_density_in t)) = Some l
    /\ (ln (1 / 1000) <= l <= ln (9 / 1000))%R
    /\ (l < 0)%R.
Proof.
  intros Hb.
  destruct (Hb current_density (Some t)) as [Hlo Hhi]. cbn in Hlo, Hhi.
  set (i := (/ 1000 * rho current_density (Some t))%R).
  assert (Hi : (1 / 1000 <= i <= 9 / 1000)%R) by (subst i; lra).
  exists (ln i). split.
  - cbn [eval]. rewrite eval_current_density_in. fold i.
    destruct (Rlt_dec 0 i) as [_ | Hn]; [reflexivity | exfalso; lra].
  - split; [split |].
    + destruct (Req_dec_T (1 / 1000) i) as [<- | Hne]; [lra |].
      left. apply ln_increasing; lra.
    + destruct (Req_dec_T i (9 / 1000)) as [-> | Hne]; [lra |].
      left. apply ln_increasing; lra.
    + rewrite <- ln_1. apply ln_increasing; lra.
Qed.

(** X11. The constraint determines the energy consumption: for a valuation
    within the declared bounds and a conductivity that is not zero, exactly
    one value of [energy_consumption[t]] satisfies the relation, the other
    variables being kept. *)
Theorem energy_consumption_determined (rho : valuation) (t : time) :
  respects_bounds rho ->
  rho solution_conductivity None <> 0%R ->
  exists e : R,
    satisfies (with_energy_consumption rho e)
      (REq (EVar energy_consumption (Some t)) (energy_consumption_rhs t))
    /\ forall e' : R,
         satisfies (with_energy_consumption rho e')
           (REq (EVar energy_consumption (Some t))
                (energy_consumption_rhs t)) ->
         e' = e.
Proof.
  intros Hb Hs.
  destruct (Hb current_density (Some t)) as [Hlo _]. cbn in Hlo.
  assert (Hrhs : forall e : R,
             eval (with_energy_consumption rho e) (energy_consumption_rhs t)
             = eval rho (energy_consumption_rhs t)).
  { intros e. now rewrite !eval_energy_consumption_rhs. }
  assert (Hdef : exists x : R, eval rho (energy_consumption_rhs t) = Some x).
  { rewrite eval_energy_consumption_rhs.
    destruct (Req_dec_T (rho solution_conductivity None) 0) as [Hz0 | _];
      [contradiction |].
    destruct (Rlt_dec 0 (/ 1000 * rho current_density (Some t)))
      as [_ | Hn]; [eexists; reflexivity | exfalso; lra]. }
  destruct Hdef as (x & Hx). exists x. split.
  - exists x. split; [reflexivity | now rewrite Hrhs].
  - intros e' (y & Hl & Hr). rewrite Hrhs, Hx in Hr. cbn in Hl. congruence.
Qed.

(** X12. The constraint at [t] reads the scalar parameters and the two
    indexed variables at [t] only: valuations that agree there satisfy it
    together, whatever they hold at other time points. *)
Theorem constraint_reads_one_time_point
  (rho rho' : valuation) (t : time) :
  (forall v : var_name, rho v None = rho' v None) ->
  (forall v : var_name, rho v (Some t) = rho' v (Some t)) ->
  satisfies rho
    (REq (EVar energy_consumption (Some t)) (energy_consumption_rhs t))
  <-> satisfies rho'
        (REq (EVar energy_consumption (Some t)) (energy_consumption_rhs t)).
Proof.
  intros Hscalar Htime. cbn [satisfies eval].
  rewrite !eval_energy_consumption_rhs, !Hscalar, !Htime. reflexivity.
Qed.

(** X13. With a positive conductivity and a spacing, a constant k1, a
    valence and a Faraday constant that are not negative, the value of the
    correlation does not decrease when the current density increases, the
    scalar parameters being the same. *)
Theorem energy_consumption_monotone (rho1 rho2 : valuation) (t : time) :
  (forall v : var_name, rho1 v None = rho2 v None) ->
  (0 < rho1 current_density (Some t) <= rho2 current_density (Some t))%R ->
  (0 < rho1 solution_conductivity None)%R ->
  (0 <= rho1 electrode_spacing None)%R ->
  (0 <= rho1 power_density_k1 None)%R ->
  (0 <= rho1 z_valence None)%R ->
  (0 <= faraday_constant)%R ->
  exists e1 e2 : R,
    eval rho1 (energy_consumption_rhs t) = Some e1
    /\ eval rho2 (energy_consumption_rhs t) = Some e2
    /\ (e1 <= e2)%R.
Proof.
  intros Hscalar [Hpos Hle] Hs Hd Hk Hz Hf.
  rewrite !eval_energy_consumption_rhs, <- !Hscalar.
  set (i1 := (/ 1000 * rho1 current_density (Some t))%R).
  set (i2 := (/ 1000 * rho2 current_density (Some t))%R).
  assert (Hi1 : (0 < i1)%R) by (subst i1; lra).
  assert (Hi12 : (i1 <= i2)%R) by (subst i1 i2; lra).
  destruct (Req_dec_T (rho1 solution_conductivity None) 0) as [Hz0 | _];
    [lra |].
  destruct (Rlt_dec 0 i1) as [_ | Hn1]; [| contradiction].
  destruct (Rlt_dec 0 i2) as [_ | Hn2]; [| exfalso; lra].
  eexists. eexists. split; [reflexivity |]. split; [reflexivity |].
  rewrite IZR_divisor.
  set (r := (rho1 electrode_spacing None
             / rho1 solution_conductivity None)%R).
  assert (Hr : (0 <= r)%R).
  { subst r. apply Rmult_le_pos; [exact Hd |].
    left. now apply Rinv_0_lt_compat. }
  assert (Hln : (ln i1 <= ln i2)%R).
  { destruct (Req_dec_T i1 i2) as [-> | Hne]; [lra |].
    left. apply ln_increasing; lra. }
  assert (Hfac : (0 <= rho1 z_valence None * faraday_constant
                       / (3600 * 10 ^ 6))%R).
  { apply Rmult_le_pos; [now apply Rmult_le_pos |].
    left. apply Rinv_0_lt_compat. simpl pow. lra. }
  apply Rmult_le_compat_r; [exact Hfac |].
  apply Rplus_le_compat_r. apply Rplus_le_compat.
  - now apply Rmult_le_compat_r.
  - now apply Rmult_le_compat_l.
Qed.

End Electrocoagulation.

(* ===================================================================== *)
(** ** Concrete runs *)
(* ===================================================================== *)


(** C10 at a steady-state flowsheet (time set [0]), an empty block, a base
    class and a [build_sido] that leave the block as it is, and every
    variable at 5: within the bounds of the current density. *)
Lemma current_density_bounds_log_argument_witness :
  exists i : R,
    eval nat 96485.33212%R (fun _ _ => 5%R) (current_density_in nat 0%nat)
    = Some i
    /\ (0 < i)%R
    /\ eval nat 96485.33212%R (fun _ _ => 5%R)
         (ELog nat (current_density_in nat 0%nat))
       = Some (ln i).
Proof.
  refine (proj1 (proj2
    (current_density_bounds_log_argument nat 96485.33212%R
       (fun b => b) (fun b => b) [0%nat] (Build_block nat None [] [] [])
       0%nat (fun _ _ => 5%R) _))).
  intros v idx. destruct v; unfold within; cbn; split; try exact I; lra.
Defined.

(** C10 as stated fails: with the current density at 5 mA/cm^2 and every
    other variable at 0 the valuation is within all declared bounds and the
    argument of the logarithm is positive, but the right-hand side of the
    constraint has no value, its ohmic term dividing by a conductivity of
    zero. *)
Lemma constraint_undefined_at_zero_conductivity :
  let rho : valuation nat :=
    fun v _ => match v with current_density => 5%R | _ => 0%R end in
  respects_bounds nat rho
  /\ eval nat 96485.33212%R rho (current_density_in nat 0%nat)
     = Some (/ 1000 * 5)%R
  /\ eval nat 96485.33212%R rho (energy_consumption_rhs nat 0%nat) = None.
Proof.
  intros rho. split; [| split].
  - intros v idx. destruct v; unfold within; cbn; split; try exact I; lra.
  - apply eval_current_density_in.
  - rewrite eval_energy_consumption_rhs. subst rho. cbn beta iota.
    destruct (Req_dec_T 0 0) as [_ | Hne]; [reflexivity | now contradiction Hne].
Qed.

(** X5 on a block that already holds a component [inlet]: it is still
    there, unchanged, after the build. *)
Lemma build_keeps_other_components_witness :
  exists unit : block nat,
    interp_state resume
      (build nat (fun b => b) (fun b => b) [0%nat]
         (Build_block nat None
            [("inlet", CVar nat (declaration electrode_spacing))] [] []))
      0
    ≈ Ret (1, unit)
    /\ component_of nat unit "inlet"
       = Some (CVar nat (declaration electrode_spacing)).
Proof.
  refine (build_keeps_other_components nat (fun b => b) (fun b => b)
            [0%nat]
            (Build_block nat None
               [("inlet", CVar nat (declaration electrode_spacing))] [] [])
            "inlet" _).
  cbn. intuition discriminate.
Defined.

(** X6 on a block whose dictionary already reports the water recovery. *)
Lemma build_keeps_other_reported_variables_witness :
  exists unit : block nat,
    interp_state resume
      (build nat (fun b => b) (fun b => b) [0%nat]
         (Build_block nat None [] []
            [("Water Recovery", "recovery_frac_mass_H2O")]))
      0
    ≈ Ret (1, unit)
    /\ lookup "Water Recovery" (_perf_var_dict nat unit)
       = Some "recovery_frac_mass_H2O".
Proof.
  refine (build_keeps_other_reported_variables nat (fun b => b)
            (fun b => b) [0%nat]
            (Build_block nat None [] []
               [("Water Recovery", "recovery_frac_mass_H2O")])
            "Water Recovery" _ _); discriminate.
Defined.

(** X7 with a [build_sido] that leaves the block as it is. *)
Lemma build_sets_tech_type_witness :
  exists unit : block nat,
    interp_state resume
      (build nat (fun b => b) (fun b => b) [0%nat]
         (Build_block nat None [] [] []))
      0
    ≈ Ret (1, unit)
    /\ _tech_type nat unit = Some "electrocoagulation".
Proof.
  exact (build_sets_tech_type nat (fun b => b) (fun b => b) [0%nat]
           (Build_block nat None [] [] []) (fun b => eq_refl)).
Defined.

(** X10 with every variable at 5. *)
Lemma log_current_density_negative_witness :
  exists l : R,
    eval nat 96485.33212%R (fun _ _ => 5%R)
      (ELog nat (current_density_in nat 0%nat))
    = Some l
    /\ (ln (1 / 1000) <= l <= ln (9 / 1000))%R
    /\ (l < 0)%R.
Proof.
  refine (log_current_density_negative nat 96485.33212%R
            (fun _ _ => 5%R) 0%nat _).
  intros v idx. destruct v; unfold within; cbn; split; try exact I; lra.
Defined.

(** X11 with every variable at 5. *)
Lemma energy_consumption_determined_witness :
  exists e : R,
    satisfies nat 96485.33212%R
      (with_energy_consumption nat (fun _ _ => 5%R) e)
      (REq nat (EVar nat energy_consumption (Some 0%nat))
           (energy_consumption_rhs nat 0%nat))
    /\ forall e' : R,
         satisfies nat 96485.33212%R
           (with_energy_consumption nat (fun _ _ => 5%R) e')
           (REq nat (EVar nat energy_consumption (Some 0%nat))
                (energy_consumption_rhs nat 0%nat)) ->
         e' = e.
Proof.
  refine (energy_consumption_determined nat 96485.33212%R
            (fun _ _ => 5%R) 0%nat _ _).
  - intros v idx. destruct v; unfold within; cbn; split; try exact I; lra.
  - lra.
Defined.

(** X12 with two valuations that differ at time point 1 only. *)
Lemma constraint_reads_one_time_point_witness :
  satisfies nat 96485.33212%R (fun _ _ => 5%R)
    (REq nat (EVar nat energy_consumption (Some 0%nat))
         (energy_consumption_rhs nat 0%nat))
  <-> satisfies nat 96485.33212%R
        (fun _ idx => match idx with Some 1%nat => 7%R | _ => 5%R end)
        (REq nat (EVar nat energy_consumption (Some 0%nat))
             (energy_consumption_rhs nat 0%nat)).
Proof.
  refine (constraint_reads_one_time_point nat 96485.33212%R
            (fun _ _ => 5%R)
            (fun _ idx => match idx with Some 1%nat => 7%R | _ => 5%R end)
            0%nat _ _); intros v; reflexivity.
Defined.

(** X13 with the current density raised from 5 to 6 mA/cm^2 and every
    other variable at 5. *)
Lemma energy_consumption_monotone_witness :
  exists e1 e2 : R,
    eval nat 96485.33212%R (fun _ _ => 5%R)
      (energy_consumption_rhs nat 0%nat)
    = Some e1
    /\ eval nat 96485.33212%R
         (fun v idx =>
            match v, idx with
            | current_density, Some _ => 6%R
            | _, _ => 5%R
            end)
         (energy_consumption_rhs nat 0%nat)
       = Some e2
    /\ (e1 <= e2)%R.
Proof.
  refine (energy_consumption_monotone nat 96485.33212%R
            (fun _ _ => 5%R)
            (fun v idx =>
               match v, idx with
               | current_density, Some _ => 6%R
               | _, _ => 5%R
               end)
            0%nat _ _ _ _ _ _ _);
    try (intros v; destruct v; reflexivity); lra.
Defined.
